(** * website_docs.h: the documentation groups of the frontend

    [docs/website_docs.h] holds no C++ declarations.  It consists of three
    documentation comments that declare the groups [frontend], [components]
    and [utilities] with the grouping commands [@defgroup], [@ingroup],
    [@brief] and [@details].

    The development embeds the file as it is (its 370 bytes), reads it the way
    a C++ front end and a documentation scanner read it (comments, lines,
    commands), and states the properties of the declared taxonomy on the
    result of that reading. *)

From Stdlib Require Import String Ascii List.
From stdpp Require Import gmap strings list fin_maps.

Local Open Scope string_scope.

(** ** The source file *)

Module Source.

(** The line feed character, the only line terminator the file uses. *)
Definition LF : ascii := ascii_of_nat 10.

(** The rows of text of [docs/website_docs.h], top to bottom. *)
Definition rows : list string :=
  [ "/**"
  ; "@defgroup frontend Frontend Application"
  ; "@brief React-based user interface components"
  ; "@details The frontend provides visualization and interaction with the analysis system."
  ; "*/"
  ; ""
  ; "/**"
  ; "@defgroup components UI Components"
  ; "@ingroup frontend"
  ; "@brief Reusable React components"
  ; "*/"
  ; ""
  ; "/**"
  ; "@defgroup utilities Utilities"
  ; "@ingroup frontend"
  ; "@brief Shared utility functions and hooks"
  ; "*/" ].

(** The bytes of the file: the rows separated by line feeds.  The file does
    not end in a line feed: its last two bytes are the closing [*/]. *)
Definition website_docs_h : string :=
  String.concat (String LF "") rows.

End Source.

(** ** Reading the file as text *)

Module Text.

Import Source.

(** Number of line feed characters, the count that [wc -l] reports. *)
Fixpoint newline_count (s : string) : nat :=
  match s with
  | EmptyString => 0
  | String c rest =>
      (if Ascii.eqb c LF then 1 else 0) + newline_count rest
  end.

(** The pieces of [s] between line feeds. *)
Fixpoint split_lines (s : string) : list string :=
  match s with
  | EmptyString => [EmptyString]
  | String c rest =>
      if Ascii.eqb c LF then EmptyString :: split_lines rest
      else match split_lines rest with
           | l :: ls => String c l :: ls
           | [] => [String c EmptyString]
           end
  end.

(** The lines of a source file.  A file that ends in a line feed has no
    further line after it; a non-empty file that does not is read as if a
    line feed were appended (C++ translation phase 2), so its last piece is
    a line too. *)
Definition lines (s : string) : list string :=
  match s with
  | EmptyString => []
  | _ =>
      let ps := split_lines s in
      match last ps with
      | Some EmptyString => removelast ps
      | _ => ps
      end
  end.

(** The lines that a line feed terminates: the strict reading of a line, which
    leaves out an unterminated tail. *)
Definition terminated_lines (s : string) : list string :=
  removelast (split_lines s).

Definition is_space (c : ascii) : bool :=
  Ascii.eqb c " "%char || Ascii.eqb c LF
  || Ascii.eqb c (ascii_of_nat 9) || Ascii.eqb c (ascii_of_nat 13).

End Text.

(** ** Reading the file as C++: comments and what is left outside them *)

Module Lexer.

Import Source Text.

Local Open Scope char_scope.

Inductive Mode :=
| Code           (* outside any comment *)
| BlockComment   (* after [/*], before the matching [*/] *)
| LineComment.   (* after [//], before the end of the line *)

(** The text that is left once comments are removed (C++ translation phase
    3): a block comment becomes one space, a line comment ends before its
    line feed.  The file has no string or character literal, so none is
    recognised. *)
Fixpoint strip_comments (m : Mode) (s : string) : string :=
  match m, s with
  | _, EmptyString => EmptyString
  | Code, String "/" (String "*" rest) =>
      String " " (strip_comments BlockComment rest)
  | Code, String "/" (String "/" rest) => strip_comments LineComment rest
  | Code, String c rest => String c (strip_comments Code rest)
  | BlockComment, String "*" (String "/" rest) => strip_comments Code rest
  | BlockComment, String _ rest => strip_comments BlockComment rest
  | LineComment, String c rest =>
      if Ascii.eqb c LF then String c (strip_comments Code rest)
      else strip_comments LineComment rest
  end.

(** The characters outside comments that are not white space: what a C++
    compiler would have to make tokens, and so declarations, from. *)
Fixpoint code_chars (s : string) : list ascii :=
  match s with
  | EmptyString => []
  | String c rest =>
      if is_space c then code_chars rest else c :: code_chars rest
  end.

Definition code_of (s : string) : list ascii :=
  code_chars (strip_comments Code s).

(** The bodies of the block comments of [s], in order: the text between
    [/*] and [*/].  [inside] tells whether the scan starts in a comment; a
    comment that is not closed runs to the end of the text. *)
Fixpoint comment_bodies (inside : bool) (s : string) : list string :=
  match s with
  | EmptyString => if inside then [EmptyString] else []
  | String c rest =>
      if inside then
        match c, rest with
        | "*", String "/" rest' => EmptyString :: comment_bodies false rest'
        | _, _ =>
            match comment_bodies true rest with
            | b :: bs => String c b :: bs
            | [] => [String c EmptyString]
            end
        end
      else
        match c, rest with
        | "/", String "*" rest' => comment_bodies true rest'
        | _, _ => comment_bodies false rest
        end
  end.

(** A block comment is a documentation comment when it opens with [/**] or
    [/*!]; its documentation is the body after that marker. *)
Definition doc_body (body : string) : option string :=
  match body with
  | String "*" doc => Some doc
  | String "!" doc => Some doc
  | _ => None
  end.

Definition doc_comments (s : string) : list string :=
  omap doc_body (comment_bodies false s).

(** How a line of the file lies with respect to the block comments. *)
Inductive LineKind :=
| Opens      (* the line [/**] that opens a documentation comment *)
| Within     (* a line of text inside a comment *)
| Closes     (* the line [*/] that closes it *)
| Outside.   (* a line outside every comment *)

Fixpoint classify (inside : bool) (ls : list string) : list LineKind :=
  match ls with
  | [] => []
  | l :: rest =>
      if inside then
        if String.eqb l "*/" then Closes :: classify false rest
        else Within :: classify true rest
      else
        if String.eqb l "/**" then Opens :: classify true rest
        else Outside :: classify false rest
  end.

Definition comment_line (k : LineKind) : bool :=
  match k with
  | Outside => false
  | _ => true
  end.

(** The lines of [ls] that lie outside every comment. *)
Definition outside_lines (ls : list string) : list string :=
  (filter (λ lk, comment_line lk.2 = false) (zip ls (classify false ls))).*1.

(** The lines of [ls] that belong to a comment. *)
Definition comment_lines (ls : list string) : list string :=
  (filter (λ lk, comment_line lk.2 = true) (zip ls (classify false ls))).*1.

(** [ls] are [n] lines and each of them is a line of a comment. *)
Definition all_comment_lines (n : nat) (ls : list string) : Prop :=
  length ls = n ∧ Forall (λ k, comment_line k = true) (classify false ls).

End Lexer.

(** ** Reading the documentation comments: grouping commands *)

Module Doc.

Import Source Text Lexer.

(** A line of a documentation comment, as the documentation scanner reads
    it.  A command is introduced by [@] or by a backslash and runs to the
    end of its line. *)
Inductive Annotation :=
| Defgroup (name title : string)   (* [@defgroup <name> <title>] *)
| Ingroup (names : list string)    (* [@ingroup <name> ...] *)
| Brief (text : string)            (* [@brief <text>] *)
| Details (text : string)          (* [@details <text>] *)
| Command (name args : string)     (* any other command *)
| Prose (text : string).           (* text that belongs to no command *)

(** Leading white space of a line carries no meaning. *)
Fixpoint trim_left (s : string) : string :=
  match s with
  | String c rest => if is_space c then trim_left rest else s
  | EmptyString => EmptyString
  end.

(** The first word of [s] and what follows the white space after it. *)
Fixpoint split_word (s : string) : string * string :=
  match s with
  | EmptyString => (EmptyString, EmptyString)
  | String c rest =>
      if is_space c then (EmptyString, trim_left rest)
      else let (w, tl) := split_word rest in (String c w, tl)
  end.

(** The words of [s]; [fuel] bounds their number ([String.length s]
    suffices, every word takes a character). *)
Fixpoint words_fuel (fuel : nat) (s : string) : list string :=
  match fuel with
  | 0 => []
  | S fuel' =>
      match trim_left s with
      | EmptyString => []
      | s' => let (w, tl) := split_word s' in w :: words_fuel fuel' tl
      end
  end.

Definition words (s : string) : list string :=
  words_fuel (String.length s) s.

Definition is_command_mark (c : ascii) : bool :=
  Ascii.eqb c "@"%char || Ascii.eqb c "\"%char.

Definition annotation_of (cmd args : string) : Annotation :=
  if String.eqb cmd "defgroup" then
    let (name, title) := split_word args in Defgroup name title
  else if String.eqb cmd "ingroup" then Ingroup (words args)
  else if String.eqb cmd "brief" then Brief args
  else if String.eqb cmd "details" then Details args
  else Command cmd args.

(** One line of a documentation comment; a blank line says nothing. *)
Definition parse_line (l : string) : option Annotation :=
  match trim_left l with
  | EmptyString => None
  | String c rest =>
      if is_command_mark c then
        let (cmd, args) := split_word rest in Some (annotation_of cmd args)
      else Some (Prose (String c rest))
  end.

Definition parse_comment (doc : string) : list Annotation :=
  omap parse_line (split_lines doc).

(** The annotations of every documentation comment of the file. *)
Definition annotations (s : string) : list (list Annotation) :=
  map parse_comment (doc_comments s).

(** What a comment says with each command. *)
Definition defgroups (anns : list Annotation) : list (string * string) :=
  omap (fun a => match a with Defgroup n t => Some (n, t) | _ => None end) anns.

Definition ingroups (anns : list Annotation) : list string :=
  mjoin (omap (fun a => match a with Ingroup ns => Some ns | _ => None end) anns).

Definition briefs (anns : list Annotation) : list string :=
  omap (fun a => match a with Brief t => Some t | _ => None end) anns.

Definition detailss (anns : list Annotation) : list string :=
  omap (fun a => match a with Details t => Some t | _ => None end) anns.

(** The lines that none of the four grouping commands accounts for. *)
Definition unread (anns : list Annotation) : list Annotation :=
  omap (fun a => match a with Command _ _ | Prose _ => Some a | _ => None end) anns.

(** A group declaration: the identifier and the title that [@defgroup]
    gives, the groups named by [@ingroup], and the texts of the [@brief] and
    [@details] annotations of the same comment. *)
Record Group := {
  ident : string;
  title : string;
  ingroup : list string;
  brief : list string;
  details : list string
}.

#[global] Instance Group_eq_dec : EqDecision Group.
Proof. solve_decision. Defined.

(** The parent reference of a declaration, when it has one. *)
Definition parent (g : Group) : option string := head (ingroup g).

(** A comment declares a group when it holds one [@defgroup]. *)
Definition group_of (anns : list Annotation) : option Group :=
  match defgroups anns with
  | [(n, t)] =>
      Some {| ident := n; title := t; ingroup := ingroups anns;
              brief := briefs anns; details := detailss anns |}
  | _ => None
  end.

Definition groups_of (s : string) : list Group :=
  omap group_of (annotations s).

(** The groups that [docs/website_docs.h] declares, in the order of the
    file. *)
Definition declared : list Group := groups_of website_docs_h.

(** The parent/child pairs that the declarations state: [(p, c)] when the
    declaration of [c] names [p] with [@ingroup]. *)
Definition parent_child (gs : list Group) : list (string * string) :=
  g ← gs; p ← ingroup g; [(p, ident g)].

(** The three declarations of the file, written out field by field. *)
Definition frontend : Group :=
  {| ident := "frontend"; title := "Frontend Application"; ingroup := [];
     brief := ["React-based user interface components"];
     details := ["The frontend provides visualization and interaction with the analysis system."] |}.

Definition components : Group :=
  {| ident := "components"; title := "UI Components"; ingroup := ["frontend"];
     brief := ["Reusable React components"]; details := [] |}.

Definition utilities : Group :=
  {| ident := "utilities"; title := "Utilities"; ingroup := ["frontend"];
     brief := ["Shared utility functions and hooks"]; details := [] |}.

(** A declaration is well formed when it has an identifier, a title, at most
    one parent reference and some descriptive text. *)
Definition well_formed (g : Group) : Prop :=
  ident g ≠ "" ∧ title g ≠ "" ∧ (length (ingroup g) ≤ 1)%nat ∧ (brief g ++ details g)%list ≠ [].

End Doc.

(** ** The taxonomy that a documentation build makes of the declarations *)

Module Taxonomy.

Import Source Text Lexer Doc.

(** Modelled from the spec: the documentation build.  The generator that
    turns the annotations into a group tree is a tool outside the repository;
    the file only holds its input.  The spec describes the outcome: groups
    are entities identified by their identifier string, each with a
    description attached, and [@ingroup] establishes the parent group of
    the group that carries it.  The build is therefore a table from
    identifiers to declarations, filled one declaration at a time; a
    declaration of an identifier that is already present takes the place of
    the earlier one, so an identifier never has two nodes. *)
Definition process (t : gmap string Group) (g : Group) : gmap string Group :=
  <[ident g := g]> t.

(** Modelled from the spec: a build processes the declarations in the order
    given, starting from the empty table. *)
Definition build (gs : list Group) : gmap string Group :=
  foldl process ∅ gs.

(** Modelled from the spec: the nodes of the tree are the identifiers of the
    table. *)
Definition nodes (t : gmap string Group) : gset string := dom t.

(** Modelled from the spec: the children of [p] are the nodes whose
    declaration names [p] as parent with [@ingroup]. *)
Definition children (t : gmap string Group) (p : string) : gset string :=
  dom (filter (λ kg, p ∈ ingroup kg.2) t).

(** Modelled from the spec: a root is a node with no parent, a leaf a node
    with no child. *)
Definition roots (t : gmap string Group) : gset string :=
  dom (filter (λ kg, ingroup kg.2 = []) t).

Definition leaves (t : gmap string Group) : gset string :=
  filter (λ k, children t k = ∅) (dom t).

(** Modelled from the spec: the parent/child relation of the tree, as a set
    of pairs. *)
Definition edges (t : gmap string Group) : gset (string * string) :=
  list_to_set (parent_child (map_to_list t).*2).

(** Modelled from the spec: what a node shows as its short description is
    the [@brief] text of its declaration, unchanged. *)
Definition shown (t : gmap string Group) (k : string) : option (list string) :=
  brief <$> t !! k.

End Taxonomy.

(** * Properties of the source text *)

Import Source Text Lexer Doc Taxonomy.

(** The embedding has the size of the file, 370 bytes. *)
Lemma website_docs_h_size : String.length website_docs_h = 370.
Proof. reflexivity. Qed.

(** Splitting the bytes at line feeds gives back the rows. *)
Lemma website_docs_h_lines : lines website_docs_h = rows.
Proof. reflexivity. Qed.

(** The file ends with the closing marker of the last comment, not with a
    line feed. *)
Lemma website_docs_h_last_line : last (split_lines website_docs_h) = Some "*/".
Proof. reflexivity. Qed.

(** A text has one more piece than it has line feeds: a file with sixteen
    line feeds and an unterminated last line has seventeen lines. *)
Lemma split_lines_length (s : string) :
  length (split_lines s) = S (newline_count s).
Proof.
  induction s as [| c rest IH]; simpl; [reflexivity|].
  destruct (Ascii.eqb c LF); simpl; [by rewrite IH|].
  destruct (split_lines rest) as [| l ls]; [discriminate IH | exact IH].
Qed.

(** The scanner output, spelled out. *)
Lemma annotations_website_docs_h :
  annotations website_docs_h =
  [ [ Defgroup "frontend" "Frontend Application"
    ; Brief "React-based user interface components"
    ; Details "The frontend provides visualization and interaction with the analysis system." ]
  ; [ Defgroup "components" "UI Components"
    ; Ingroup ["frontend"]
    ; Brief "Reusable React components" ]
  ; [ Defgroup "utilities" "Utilities"
    ; Ingroup ["frontend"]
    ; Brief "Shared utility functions and hooks" ] ].
Proof. vm_compute. reflexivity. Qed.

Lemma declared_eq : declared = [frontend; components; utilities].
Proof.
  unfold declared, groups_of. rewrite annotations_website_docs_h. reflexivity.
Qed.

Lemma elem_of_declared (g : Group) :
  g ∈ declared ↔ g = frontend ∨ g = components ∨ g = utilities.
Proof.
  rewrite declared_eq, !elem_of_cons, elem_of_nil. tauto.
Qed.

Lemma declared_idents : ident <$> declared = ["frontend"; "components"; "utilities"].
Proof. by rewrite declared_eq. Qed.

(** Every line inside the three comments is one of the four grouping
    commands: the scanner leaves nothing of the file unread. *)
Lemma nothing_unread : Forall (λ anns, unread anns = []) (annotations website_docs_h).
Proof.
  rewrite annotations_website_docs_h. repeat constructor.
Qed.

(** * The declared groups *)

Lemma declared_NoDup : NoDup (ident <$> declared).
Proof.
  rewrite declared_idents.
  repeat (apply NoDup_cons; split;
    [rewrite ?elem_of_cons, elem_of_nil; intuition discriminate|]).
  apply NoDup_nil_2.
Qed.

(** C2: the identifiers of the declared groups are pairwise distinct: the
    file declares [frontend], [components] and [utilities], in this order,
    and no identifier occurs twice among them. *)
Theorem declared_identifiers_unique :
  ident <$> declared = ["frontend"; "components"; "utilities"]
  ∧ NoDup (ident <$> declared).
Proof.
  split; [apply declared_idents | apply declared_NoDup].
Qed.

(** C3: a parent reference always names a declared group: whenever a
    declared group [g] names [p] with [@ingroup], [p] is the identifier of a
    declared group.  The only parent named in the file is [frontend]. *)
Theorem ingroup_references_declared (g : Group) (p : string) :
  g ∈ declared → p ∈ ingroup g → p = "frontend" ∧ p ∈ ident <$> declared.
Proof.
  rewrite elem_of_declared, declared_idents.
  intros [-> | [-> | ->]] Hp; simpl in Hp.
  - by apply elem_of_nil in Hp.
  - apply list_elem_of_singleton in Hp as ->. split; [done | apply list_elem_of_here].
  - apply list_elem_of_singleton in Hp as ->. split; [done | apply list_elem_of_here].
Qed.

Lemma ingroup_references_declared_witness :
  "frontend" = "frontend" ∧ "frontend" ∈ ident <$> declared.
Proof.
  apply (ingroup_references_declared components "frontend").
  - apply elem_of_declared. right. left. reflexivity.
  - simpl. apply list_elem_of_here.
Defined.

(** C4: every declared group carries exactly one short description: the
    comment of each of the three groups holds one [@brief] annotation, and
    the declaration made from it has that one text as its brief. *)
Theorem one_brief_per_group :
  Forall (λ anns, length (briefs anns) = 1) (annotations website_docs_h)
  ∧ Forall (λ g, ∃ text, brief g = [text]) declared
  ∧ ident <$> declared = ["frontend"; "components"; "utilities"].
Proof.
  split; [|split].
  - rewrite annotations_website_docs_h. repeat constructor.
  - rewrite declared_eq. repeat constructor; eexists; reflexivity.
  - apply declared_idents.
Qed.

(** C7: the declarations state exactly the parent/child pairs
    (frontend, components) and (frontend, utilities); [frontend] is the one
    declared group that names no parent. *)
Theorem declared_parent_child_relation :
  parent_child declared = [("frontend", "components"); ("frontend", "utilities")]
  ∧ (∀ p c, (p, c) ∈ parent_child declared ↔
            p = "frontend" ∧ (c = "components" ∨ c = "utilities"))
  ∧ ident <$> filter (λ g, parent g = None) declared = ["frontend"].
Proof.
  assert (parent_child declared =
          [("frontend", "components"); ("frontend", "utilities")]) as Hpc
    by (by rewrite declared_eq).
  split; [exact Hpc | split].
  - intros p c. rewrite Hpc, !elem_of_cons, elem_of_nil. split.
    + intros [[= -> ->] | [[= -> ->] | []]]; auto.
    + intros [-> [-> | ->]]; auto.
  - by rewrite declared_eq.
Qed.

(** C8: each declaration consists of an identifier, a title, an optional
    parent reference and descriptive text, and of nothing else: [frontend]
    has no parent reference, [components] and [utilities] each have one, to
    [frontend]. *)
Theorem declaration_shape :
  (λ g, (ident g, title g, parent g)) <$> declared =
    [ ("frontend", "Frontend Application", None)
    ; ("components", "UI Components", Some "frontend")
    ; ("utilities", "Utilities", Some "frontend") ]
  ∧ Forall well_formed declared
  ∧ Forall (λ anns, unread anns = []) (annotations website_docs_h).
Proof.
  split; [by rewrite declared_eq | split; [| exact nothing_unread]].
  rewrite declared_eq.
  repeat apply Forall_cons_2; try apply Forall_nil_2;
    (repeat split; [discriminate | discriminate | simpl; lia | discriminate]).
Qed.

(** C10: [frontend] is the only declared group with a long description; the
    comments of [components] and [utilities] hold a [@brief] and no
    [@details]. *)
Theorem only_frontend_has_details :
  (λ g, (ident g, length (brief g), length (details g))) <$> declared =
    [ ("frontend", 1, 1); ("components", 1, 0); ("utilities", 1, 0) ]
  ∧ ident <$> filter (λ g, details g ≠ []) declared = ["frontend"]
  ∧ (λ anns, length (detailss anns)) <$> annotations website_docs_h = [1; 0; 0].
Proof.
  split; [by rewrite declared_eq | split].
  - by rewrite declared_eq.
  - by rewrite annotations_website_docs_h.
Qed.

(** * The file as a whole *)

(** C9, as stated, does not hold: the file is not sixteen lines that are all
    comment lines.  Read with its unterminated last line it has seventeen
    lines; read as the sixteen lines that a line feed ends, the sixth and
    the twelfth are empty lines outside every comment. *)
Lemma not_sixteen_comment_lines :
  ¬ all_comment_lines 16 (lines website_docs_h)
  ∧ ¬ all_comment_lines 16 (terminated_lines website_docs_h).
Proof.
  split.
  - intros [Hlen _]. vm_compute in Hlen. discriminate Hlen.
  - intros [_ Hall]. rewrite Forall_lookup in Hall.
    specialize (Hall 5 Outside eq_refl). discriminate Hall.
Qed.

(** C9, amended: the file has seventeen lines, sixteen of them ended by a
    line feed and the last one, the closing marker of the third comment, not.
    Fifteen lines make up three documentation comments; the other two are
    the empty lines between the comments.  Outside the comments the file
    holds white space only, so it has no token a declaration (a function, a
    contract, an error condition, an effect) could be made of. *)
Theorem source_is_documentation_only :
  length (lines website_docs_h) = 17
  ∧ newline_count website_docs_h = 16
  ∧ classify false (lines website_docs_h) =
      [ Opens; Within; Within; Within; Closes; Outside
      ; Opens; Within; Within; Within; Closes; Outside
      ; Opens; Within; Within; Within; Closes ]
  ∧ length (comment_lines (lines website_docs_h)) = 15
  ∧ outside_lines (lines website_docs_h) = [""; ""]
  ∧ length (comment_bodies false website_docs_h) = 3
  ∧ length (doc_comments website_docs_h) = 3
  ∧ code_of website_docs_h = [].
Proof.
  repeat split; vm_compute; reflexivity.
Qed.

(** * The build of the taxonomy *)

Section Build.

Implicit Types (t : gmap string Group) (g : Group) (gs : list Group).

(** Declarations of different identifiers can be processed in either order. *)
Lemma process_commute t g h :
  ident g ≠ ident h → process (process t g) h = process (process t h) g.
Proof. intros Hne. unfold process. by apply insert_insert_ne. Qed.

(** The table after a run of declarations: the later declaration of an
    identifier wins, and what was there before stays for the others. *)
Lemma foldl_process t gs :
  foldl process t gs = list_to_map (reverse ((λ g, (ident g, g)) <$> gs)) ∪ t.
Proof.
  revert t. induction gs as [| g gs IH]; intros t; simpl.
  - by rewrite (left_id_L ∅ (∪)).
  - rewrite IH, reverse_cons, list_to_map_app. unfold process. simpl.
    rewrite <- (assoc_L (∪)). f_equal.
    by rewrite insert_empty, <- insert_union_singleton_l.
Qed.

Lemma build_app gs gs' : build (gs ++ gs') = foldl process (build gs) gs'.
Proof. apply foldl_app. Qed.

(** Processing the same declarations a second time leaves the table as it
    is, whatever the declarations are. *)
Lemma build_twice gs : foldl process (build gs) gs = build gs.
Proof.
  unfold build. rewrite !foldl_process, (right_id_L ∅ (∪)).
  apply (idemp_L (∪)).
Qed.

(** The order of declarations with distinct identifiers does not matter. *)
Lemma foldl_process_permutation gs gs' :
  gs ≡ₚ gs' → NoDup (ident <$> gs) → ∀ t, foldl process t gs = foldl process t gs'.
Proof.
  induction 1 as [| g gs gs' _ IH | g h gs | gs1 gs2 gs3 H12 IH12 _ IH23];
    intros Hnd t; simpl.
  - reflexivity.
  - apply IH. by apply NoDup_cons in Hnd as [_ ?].
  - f_equal. apply process_commute.
    rewrite !fmap_cons in Hnd. apply NoDup_cons in Hnd as [Hh _].
    intros Heq. apply Hh. rewrite Heq. apply list_elem_of_here.
  - rewrite IH12 by done. apply IH23. by rewrite <- H12.
Qed.

Lemma build_permutation gs gs' :
  gs ≡ₚ gs' → NoDup (ident <$> gs) → build gs = build gs'.
Proof. intros Hp Hnd. by apply foldl_process_permutation. Qed.

(** With distinct identifiers, the table holds each declaration under its
    identifier. *)
Lemma build_lookup gs g :
  NoDup (ident <$> gs) → g ∈ gs → build gs !! ident g = Some g.
Proof.
  intros Hnd Hg. apply elem_of_Permutation in Hg as [gs' Hp].
  rewrite (build_permutation _ _ Hp Hnd). unfold build.
  rewrite foldl_process, (right_id_L ∅ (∪)). simpl.
  rewrite reverse_cons, list_to_map_snoc; [apply lookup_insert_eq|].
  rewrite Hp, fmap_cons in Hnd. apply NoDup_cons in Hnd as [Hni _].
  by rewrite fmap_reverse, <- list_fmap_compose, elem_of_reverse.
Qed.

(** The nodes are the declared identifiers, once each. *)
Lemma nodes_build gs : nodes (build gs) = list_to_set (ident <$> gs).
Proof.
  unfold nodes, build. rewrite foldl_process, (right_id_L ∅ (∪)).
  rewrite dom_list_to_map_L, fmap_reverse, <- list_fmap_compose.
  apply set_eq. intros k. by rewrite !elem_of_list_to_set, elem_of_reverse.
Qed.

End Build.

(** The tree that the three declarations of the file build. *)
Lemma build_declared_tree :
  nodes (build declared) = {["frontend"; "components"; "utilities"]}
  ∧ roots (build declared) = {["frontend"]}
  ∧ leaves (build declared) = {["components"; "utilities"]}
  ∧ children (build declared) "frontend" = {["components"; "utilities"]}
  ∧ edges (build declared) =
      {[("frontend", "components"); ("frontend", "utilities")]}.
Proof. repeat split; vm_compute; reflexivity. Qed.

(** C1: built from the three declarations of the file, the tree has the
    nodes [frontend], [components] and [utilities]; its one root is
    [frontend], its two leaves are [components] and [utilities], and what
    each leaf shows as short description is, character for character, the
    text that follows [@brief] in the file. *)
Theorem build_of_declared_groups :
  nodes (build declared) = {["frontend"; "components"; "utilities"]}
  ∧ roots (build declared) = {["frontend"]}
  ∧ size (roots (build declared)) = 1
  ∧ leaves (build declared) = {["components"; "utilities"]}
  ∧ size (leaves (build declared)) = 2
  ∧ shown (build declared) "components" = Some ["Reusable React components"]
  ∧ shown (build declared) "utilities" = Some ["Shared utility functions and hooks"]
  ∧ (∀ k, k ∈ leaves (build declared) →
       ∃ text, shown (build declared) k = Some [text]
               ∧ "@brief " +:+ text ∈ lines website_docs_h).
Proof.
  destruct build_declared_tree as (Hn & Hr & Hl & _).
  split; [exact Hn | split; [exact Hr | split; [| split; [exact Hl | split]]]].
  - rewrite Hr. apply size_singleton.
  - rewrite Hl, size_union, !size_singleton; [done|].
    apply disjoint_singleton_l. rewrite elem_of_singleton. discriminate.
  - assert (∀ g, g ∈ declared → shown (build declared) (ident g) = Some (brief g)) as Hshown.
    { intros g Hg. unfold shown. rewrite build_lookup; [done | | done].
      apply declared_NoDup. }
    split; [apply (Hshown components), elem_of_declared; auto|].
    split; [apply (Hshown utilities), elem_of_declared; auto|].
    intros k. rewrite Hl, elem_of_union, !elem_of_singleton.
    intros [-> | ->]; eexists; (split; [apply (Hshown components) || apply (Hshown utilities); apply elem_of_declared; auto|]);
      rewrite website_docs_h_lines; simpl; unfold rows;
      rewrite !elem_of_cons; auto 20.
Qed.

(** C5: in whatever order the three declarations are processed, the build
    gives the same taxonomy, and its parent/child relation is [frontend]
    over [components] and [utilities]. *)
Theorem build_independent_of_order (order : list Group) :
  declared ≡ₚ order →
  build order = build declared
  ∧ children (build order) "frontend" = {["components"; "utilities"]}
  ∧ edges (build order) =
      {[("frontend", "components"); ("frontend", "utilities")]}.
Proof.
  intros Hp.
  rewrite <- (build_permutation declared order Hp declared_NoDup).
  destruct build_declared_tree as (_ & _ & _ & Hc & He). auto.
Qed.

Lemma build_independent_of_order_witness :
  build [utilities; frontend; components] = build declared
  ∧ children (build [utilities; frontend; components]) "frontend" =
      {["components"; "utilities"]}
  ∧ edges (build [utilities; frontend; components]) =
      {[("frontend", "components"); ("frontend", "utilities")]}.
Proof.
  apply (build_independent_of_order [utilities; frontend; components]).
  apply (bool_decide_unpack _). vm_compute. reflexivity.
Defined.

(** C6: processing the three declarations a second time leaves the taxonomy
    as the first pass made it: the same table, with one node for each of the
    three identifiers. *)
Theorem build_idempotent :
  foldl process (build declared) declared = build declared
  ∧ build (declared ++ declared) = build declared
  ∧ nodes (build (declared ++ declared)) = {["frontend"; "components"; "utilities"]}
  ∧ size (build (declared ++ declared)) = 3.
Proof.
  assert (build (declared ++ declared) = build declared) as Htwice
    by (rewrite build_app; apply build_twice).
  split; [apply build_twice | split; [exact Htwice | rewrite Htwice; split]].
  - apply build_declared_tree.
  - vm_compute. reflexivity.
Qed.

(** * The file in front of other text *)


